(** * C2VSimFG_MapHeads: the headsout-to-csv converter

    A shallow embedding of [get_header_from_headsout_file] and
    [headsout_to_csv] of [C2VSimFG_MapHeads.py], and the properties of the
    converter that its specification states.

    Text is a [string] of code points below 256.  A text file opened for
    reading is the list of the lines its iterator yields; a file opened for
    writing is the string written so far.  Python integers are [Z].
    Exceptions are values of [exn], carried by [result]. *)

From Stdlib Require Import List String Ascii ZArith Lia Bool.
From Stdlib Require Import DecimalString DecimalZ.
Import ListNotations.

Local Open Scope string_scope.
Local Open Scope Z_scope.

(** ** Python values the converter uses *)

Module Py.

(** The exceptions the two functions can raise. [UnboundLocalError] is a
    subclass of [NameError]; it carries the name of the local variable. *)
Inductive exn : Type :=
| TypeError
| IndexError
| UnboundLocalError (name : string)
| ValueError (msg : string).

Inductive result (A : Type) : Type :=
| Ok (a : A)
| Raise (e : exn).

Arguments Ok {A} a.
Arguments Raise {A} e.

(** [str.isspace] on one character, for code points below 256: the
    characters [str.split()] treats as separators. *)
Definition isspace (c : ascii) : bool :=
  let n := Z.of_nat (nat_of_ascii c) in
  ((9 <=? n) && (n <=? 13)) || ((28 <=? n) && (n <=? 32))
  || (n =? 133) || (n =? 160).

(** A pending token is emitted only when it has at least one character. *)
Definition flush (tok : string) : list string :=
  match tok with
  | EmptyString => []
  | _ => [tok]
  end.

(** [tokens tok s]: the tokens of [s], [tok] being the token read so far. *)
Fixpoint tokens (tok : string) (s : string) : list string :=
  match s with
  | EmptyString => flush tok
  | String c s' =>
      if isspace c then flush tok ++ tokens EmptyString s'
      else tokens (tok ++ String c EmptyString) s'
  end.

(** [s.split()] with no argument. *)
Definition split (s : string) : list string := tokens EmptyString s.

(** [sep.join(l)]. *)
Definition join (sep : string) (l : list string) : string :=
  String.concat sep l.

(** [l.insert(i, x)] for [i >= 0]: past the end it appends. *)
Definition insert {A} (i : nat) (x : A) (l : list A) : list A :=
  firstn i l ++ x :: skipn i l.

(** [str(n)] on an integer. *)
Definition str (n : Z) : string := NilEmpty.string_of_int (Z.to_int n).

(** [int(s)] on the strings [str] produces. *)
Definition int (s : string) : option Z :=
  option_map Z.of_int (NilEmpty.int_of_string s).

(** The line terminator of a text file. *)
Definition newline : string := String "010" EmptyString.

(** [s[0]]: [None] stands for the [IndexError] of an empty string. *)
Definition first_char (s : string) : option ascii := String.get 0 s.

(** The lines a text file yields when iterated: each keeps its newline,
    the last one may lack it, and none is empty. *)
Fixpoint iter_lines (s : string) : list string :=
  match s with
  | EmptyString => []
  | String c s' =>
      if Ascii.eqb c "010" then String c EmptyString :: iter_lines s'
      else match iter_lines s' with
           | [] => [String c EmptyString]
           | l :: ls => String c l :: ls
           end
  end.

End Py.

Import Py.

(** ** The source functions *)

(** [line[0] != '*'], for a line that has a first character. *)
Definition is_marker (c : ascii) : bool := Ascii.eqb c "*".

(** The loop of [get_header_from_headsout_file]. [previous_line] is [None]
    while the local variable is unbound.  Reading it unbound raises
    [UnboundLocalError], which the [except NameError] clause turns into a
    bare [return]; a loop that runs off the file returns [None] too. *)
Fixpoint header_scan (previous_line : option string) (f : list string)
  : result (option (list string)) :=
  match f with
  | [] => Ok None
  | line :: f' =>
      match first_char line with
      | None => Raise IndexError
      | Some c =>
          if negb (is_marker c) then
            match previous_line with
            | None => Ok None
            | Some p => let header := split p in Ok (Some (skipn 1 header))
            end
          else header_scan (Some line) f'
      end
  end.

Definition get_header_from_headsout_file (headsout_file : list string)
  : result (option (list string)) :=
  header_scan None headsout_file.

(** The local variables of [headsout_to_csv] that live across iterations;
    [None] is an unbound variable. *)
Record locals : Type := Locals {
  layer : option Z;
  date : option string
}.

Definition unbound : locals := Locals None None.

Definition shape_message (i : Z) : string :=
  "line " ++ str (i + 1) ++ " in file does not have the correct number of values".

(** The body of the [for i, line in enumerate(f)] loop up to the two
    [write] calls: the new locals, and the [line_list] to be written
    ([None] for a line that starts with the marker). *)
Definition process_line (num_columns i : Z) (st : locals) (line : string)
  : result (locals * option (list string)) :=
  match first_char line with
  | None => Raise IndexError
  | Some c =>
      if negb (is_marker c) then
        let line_list := split line in
        if Z.of_nat (List.length line_list) =? num_columns then
          match nth_error line_list 0 with
          | None => Raise IndexError
          | Some d =>
              Ok (Locals (Some 1) (Some d),
                  Some (insert 1 (str 1) line_list))
          end
        else if Z.of_nat (List.length line_list) =? num_columns - 1 then
          match layer st with
          | None => Raise (UnboundLocalError "layer")
          | Some l =>
              match date st with
              | None => Raise (UnboundLocalError "date")
              | Some d =>
                  let line_list := insert 0 d line_list in
                  Ok (Locals (Some (l + 1)) (Some d),
                      Some (insert 1 (str (l + 1)) line_list))
              end
          end
        else Raise (ValueError (shape_message i))
      else Ok (st, None)
  end.

(** The loop of [headsout_to_csv]: [out_csv] is what has been written, and
    the exception, if any, ends the loop with the file as it is. *)
Fixpoint convert_lines (num_columns i : Z) (st : locals) (out_csv : string)
  (f : list string) : string * option exn :=
  match f with
  | [] => (out_csv, None)
  | line :: f' =>
      match process_line num_columns i st line with
      | Raise e => (out_csv, Some e)
      | Ok (st', None) => convert_lines num_columns (i + 1) st' out_csv f'
      | Ok (st', Some line_list) =>
          let out_csv := out_csv ++ newline in
          let out_csv := out_csv ++ join "," line_list in
          convert_lines num_columns (i + 1) st' out_csv f'
      end
  end.

(** [headsout_to_csv]: the contents of the csv file ([None] when it was
    never opened) and the exception that ended the call, if any.  The file
    is read twice from its start, so both passes see the same lines. *)
Definition headsout_to_csv (headsout_file : list string)
  : option string * option exn :=
  match get_header_from_headsout_file headsout_file with
  | Raise e => (None, Some e)
  | Ok None => (None, Some TypeError)
  | Ok (Some header) =>
      let num_columns := Z.of_nat (List.length header) in
      let header := insert 1 "Layer" header in
      let out_csv := join "," header in
      let '(out_csv, e) :=
        convert_lines num_columns 0 unbound out_csv headsout_file in
      (Some out_csv, e)
  end.

(** ** Observing the run

    [headsout_to_csv] only leaves a string behind.  [normalize] runs the same
    loop body and keeps what the string forgets: the [line_list] of every
    line written, the locals at the end, and the exception. *)

Record run : Type := Run {
  emitted : list (list string);
  final : locals;
  raised : option exn
}.

Fixpoint normalize (num_columns i : Z) (st : locals) (f : list string) : run :=
  match f with
  | [] => Run [] st None
  | line :: f' =>
      match process_line num_columns i st line with
      | Raise e => Run [] st (Some e)
      | Ok (st', None) => normalize num_columns (i + 1) st' f'
      | Ok (st', Some line_list) =>
          let r := normalize num_columns (i + 1) st' f' in
          Run (line_list :: emitted r) (final r) (raised r)
      end
  end.

(** What the two [write] calls of one iteration append, for each record. *)
Fixpoint rows (recs : list (list string)) : string :=
  match recs with
  | [] => EmptyString
  | r :: recs' => newline ++ join "," r ++ rows recs'
  end.

(** A line the iterator can yield that does not start with the marker. *)
Definition is_data (line : string) : bool :=
  match first_char line with
  | Some c => negb (is_marker c)
  | None => false
  end.

(** A line that starts with the marker. *)
Definition is_marker_line (line : string) : bool :=
  match first_char line with
  | Some c => is_marker c
  | None => false
  end.

Definition data_lines (f : list string) : list string := filter is_data f.

(** The number of whitespace-separated tokens of a line, as [len] gives it. *)
Definition token_count (line : string) : Z :=
  Z.of_nat (List.length (split line)).

(** The Layer field of an output record, read back as an integer. *)
Definition layer_of (r : list string) : option Z :=
  match nth_error r 1 with
  | Some s => int s
  | None => None
  end.

(** An output record without its Layer field. *)
Definition drop_layer (r : list string) : list string :=
  firstn 1 r ++ skipn 2 r.

(** The identifier a Continuation record inherits: the first token of the
    most recent of the [earlier] data lines that has [num_columns] tokens,
    [cur] when there is none. *)
Fixpoint current_identifier (num_columns : Z) (cur : option string)
  (earlier : list string) : option string :=
  match earlier with
  | [] => cur
  | line :: rest =>
      current_identifier num_columns
        (if token_count line =? num_columns
         then nth_error (split line) 0 else cur) rest
  end.

(** The two shapes of an accepted data line, with the record each yields. *)
Inductive emits (num_columns : Z) (st : locals) (line : string)
  : locals -> list string -> Prop :=
| emits_full d rest :
    token_count line = num_columns ->
    split line = d :: rest ->
    emits num_columns st line
      (Locals (Some 1) (Some d)) (d :: str 1 :: rest)
| emits_continuation l d :
    token_count line = num_columns - 1 ->
    layer st = Some l ->
    date st = Some d ->
    emits num_columns st line
      (Locals (Some (l + 1)) (Some d)) (d :: str (l + 1) :: split line).

(** [s.split(c)] on a one-character separator: the pieces of [s] between
    the occurrences of [c]. *)
Fixpoint split_on (c : ascii) (s : string) : list string :=
  match s with
  | EmptyString => [EmptyString]
  | String a s' =>
      if Ascii.eqb a c then EmptyString :: split_on c s'
      else match split_on c s' with
           | [] => [String a EmptyString]
           | p :: ps => String a p :: ps
           end
  end.

(** [c] occurs in [s]. *)
Fixpoint occurs (c : ascii) (s : string) : bool :=
  match s with
  | EmptyString => false
  | String a s' => Ascii.eqb a c || occurs c s'
  end.

(** Every character of [s] is whitespace. *)
Fixpoint all_space (s : string) : bool :=
  match s with
  | EmptyString => true
  | String a s' => isspace a && all_space s'
  end.

(** No character of [s] is whitespace. *)
Fixpoint no_space (s : string) : bool :=
  match s with
  | EmptyString => true
  | String a s' => negb (isspace a) && no_space s'
  end.

(** The records of a run that raised nothing, line by line: each data line
    is of one of the two shapes, from the locals the line before left. *)
Inductive chain (n : Z) : locals -> list string -> list (list string)
  -> locals -> Prop :=
| chain_nil st : chain n st [] [] st
| chain_cons st line st' r lines recs st'' :
    emits n st line st' r ->
    chain n st' lines recs st'' ->
    chain n st (line :: lines) (r :: recs) st''.

Create HintDb headsout.
#[local] Hint Constructors chain emits : headsout.

(** The Layer of the record before position [k], the layer counter the run
    started from when [k] is the first. *)
Definition prev_layer (st : locals) (recs : list (list string)) (k : nat)
  : option Z :=
  match k with
  | O => layer st
  | S k' => match nth_error recs k' with
            | Some r' => layer_of r'
            | None => None
            end
  end.

(** Records hold no whitespace, so none holds a newline. *)
Definition clean (st : locals) : Prop :=
  match date st with
  | Some d => no_space d = true
  | None => True
  end.

(** ** Sample files *)

(** A headsout file of two hydrographs: one time step, two layers. *)
Definition two_layers : list string := iter_lines
"*                 HYDROGRAPH ID
*        TIME        1      2
01/31/2000_24:00   1.1    2.2
                   3.3    4.4
".

(** The same file with a second time step, one value too long. *)
Definition long_line : list string := iter_lines
"*                 HYDROGRAPH ID
*        TIME        1      2
01/31/2000_24:00   1.1    2.2
                   3.3    4.4
02/29/2000_24:00   5.5    6.6    7.7
                   8.8    9.9
".

(** A file whose first data line lacks the time. *)
Definition orphan : list string := iter_lines
"*        TIME        1      2
                   3.3    4.4
01/31/2000_24:00   1.1    2.2
".

(** A file of comments only. *)
Definition comments_only : list string := iter_lines
"*                 HYDROGRAPH ID
*        TIME        1      2
".

(** A file that starts with its data. *)
Definition data_first : list string := iter_lines
"01/31/2000_24:00   1.1    2.2
*        TIME        1      2
".

(** The scenario of the specification: a header line whose second token is
    a column index, and one data line. *)
Definition indexed_header : list string := iter_lines
"* 1 DATE NODE1 NODE2
01/01/2000_0000 1.1 2.2".

(** The same data under a header line that names the columns only. *)
Definition plain_header : list string := iter_lines
"* DATE NODE1 NODE2
01/01/2000_0000 1.1 2.2".

(** ** The input list and the files around the converter *)

(** The test of the list comprehension of [read_from_command_line]:
    [len(item) != 0 and item[0] != '#'].  The second test is reached on a
    non-empty item only, so its [IndexError] branch is dead. *)
Definition keep_item (item : string) : bool :=
  negb (Nat.eqb (String.length item) 0) &&
  match first_char item with
  | Some c => negb (Ascii.eqb c "#")
  | None => false
  end.

(** What [read_from_command_line] makes of the text it read:
    [input_data.split('\n')], then the comprehension. *)
Definition clean_list (input_data : string) : list string :=
  let input_list := split_on "010" input_data in
  filter keep_item input_list.

(** The files the program can see: the text of each path that exists. *)
Definition files : Type := string -> option string.

(** A file opened with mode ['w'], written and closed. *)
Definition write_file (fs : files) (path text : string) : files :=
  fun p => if String.eqb p path then Some text else fs p.

(** What ends a call that touches files or the terminal: an exception of the
    converter, a path that [open] does not find, or the end of the standard
    input at [input]. *)
Inductive failure : Type :=
| Python (e : exn)
| FileNotFoundError (path : string)
| EOFError.

Inductive outcome (A : Type) : Type :=
| Done (a : A)
| Failed (e : failure).

Arguments Done {A} a.
Arguments Failed {A} e.

(** [open(path, 'r')] followed by [f.read()]. *)
Definition read_file (fs : files) (path : string) : outcome string :=
  match fs path with
  | Some text => Done text
  | None => Failed (FileNotFoundError path)
  end.

(** [read_from_command_line]: [args] is [sys.argv]; [reply] is the line the
    user types at the prompt of [input], [None] at the end of the input. *)
Definition read_from_command_line (fs : files) (reply : option string)
  (args : list string) : outcome (list string) :=
  match args with
  | [_; last] =>
      match read_file fs last with
      | Done input_data => Done (clean_list input_data)
      | Failed e => Failed e
      end
  | [_] =>
      match reply with
      | None => Failed EOFError
      | Some file_name =>
          match read_file fs file_name with
          | Done input_data => Done (clean_list input_data)
          | Failed e => Failed e
          end
      end
  | _ => Failed (Python TypeError)
  end.

(** The conversion step of the main block:
    [if not os.path.exists(headsout_csv): headsout_to_csv(headsout_file, headsout_csv)].
    Past the test the two paths differ, as one exists and the other does
    not, so both passes of the converter read the same text.  The result is
    the files afterwards and what ended the step, if anything did. *)
Definition convert_if_missing (fs : files) (headsout_file headsout_csv : string)
  : files * option failure :=
  match fs headsout_csv with
  | Some _ => (fs, None)
  | None =>
      match read_file fs headsout_file with
      | Failed e => (fs, Some e)
      | Done text =>
          match headsout_to_csv (iter_lines text) with
          | (None, e) => (fs, option_map Python e)
          | (Some out_csv, e) =>
              (write_file fs headsout_csv out_csv, option_map Python e)
          end
      end
  end.

(** A line that has a first character. *)
Definition nonempty (line : string) : bool :=
  match line with
  | EmptyString => false
  | String _ _ => true
  end.

(** An input file of the program: comments, blank lines and the settings. *)
Definition sample_inputs : string :=
"# nodes
Nodes.dat

# heads
HeadsOut.out
heads.csv
".


(** A directory with a headsout file that fails on its fifth line. *)
Definition sample_files : files :=
  fun p => if String.eqb p "HeadsOut.out"
           then Some "*                 HYDROGRAPH ID
*        TIME        1      2
01/31/2000_24:00   1.1    2.2
                   3.3    4.4
02/29/2000_24:00   5.5    6.6    7.7
"
           else if String.eqb p "inputs.txt" then Some sample_inputs
           else None.

(** ** Python values: basic facts *)

Lemma append_nil_r (s : string) : s ++ EmptyString = s.
Proof. induction s as [|a s IH]; simpl; [reflexivity | now rewrite IH]. Qed.

Lemma append_assoc (s t u : string) : (s ++ t) ++ u = s ++ (t ++ u).
Proof. induction s as [|a s IH]; simpl; [reflexivity | now rewrite IH]. Qed.

Lemma int_str (n : Z) : int (str n) = Some n.
Proof.
  unfold int, str. rewrite NilEmpty.isi. simpl. now rewrite DecimalZ.of_to.
Qed.

Lemma insert_1_cons {A} (x a : A) (l : list A) :
  insert 1 x (a :: l) = a :: x :: l.
Proof. reflexivity. Qed.

Lemma first_char_data (line : string) :
  is_data line = true ->
  exists c, first_char line = Some c /\ is_marker c = false.
Proof.
  unfold is_data. destruct (first_char line) as [c|]; [|discriminate].
  intros H. exists c. split; [reflexivity|].
  now apply negb_true_iff.
Qed.

Lemma first_char_marker (line : string) :
  is_marker_line line = true ->
  exists c, first_char line = Some c /\ is_marker c = true.
Proof.
  unfold is_marker_line. destruct (first_char line) as [c|]; [|discriminate].
  intros H. now exists c.
Qed.

(** ** One iteration of the loop *)

Section Iteration.

Variables (num_columns i : Z) (st : locals) (line : string).

Lemma process_line_marker :
  is_marker_line line = true ->
  process_line num_columns i st line = Ok (st, None).
Proof.
  intros H. destruct (first_char_marker _ H) as (c & Hc & Hm).
  unfold process_line. now rewrite Hc, Hm.
Qed.

Lemma process_line_shape :
  is_data line = true ->
  token_count line <> num_columns ->
  token_count line <> num_columns - 1 ->
  process_line num_columns i st line = Raise (ValueError (shape_message i)).
Proof.
  intros H Hn Hn1. destruct (first_char_data _ H) as (c & Hc & Hm).
  unfold process_line. rewrite Hc, Hm. simpl.
  unfold token_count in Hn, Hn1.
  apply Z.eqb_neq in Hn, Hn1. now rewrite Hn, Hn1.
Qed.

Lemma process_line_orphan :
  is_data line = true ->
  token_count line = num_columns - 1 ->
  layer st = None ->
  process_line num_columns i st line = Raise (UnboundLocalError "layer").
Proof.
  intros H Hn Hl. destruct (first_char_data _ H) as (c & Hc & Hm).
  unfold process_line. rewrite Hc, Hm. simpl.
  unfold token_count in Hn.
  replace (Z.of_nat (List.length (split line)) =? num_columns) with false
    by (symmetry; apply Z.eqb_neq; lia).
  apply Z.eqb_eq in Hn. now rewrite Hn, Hl.
Qed.

Lemma process_line_skip st' :
  process_line num_columns i st line = Ok (st', None) ->
  is_marker_line line = true /\ st' = st.
Proof.
  unfold process_line, is_marker_line.
  destruct (first_char line) as [c|]; [|discriminate].
  destruct (is_marker c); simpl.
  - intros [= <-]. now split.
  - destruct (_ =? num_columns).
    + destruct (split line); simpl; discriminate.
    + destruct (_ =? num_columns - 1); [|discriminate].
      destruct (layer st); [|discriminate].
      destruct (date st); discriminate.
Qed.

Lemma process_line_emits st' r :
  process_line num_columns i st line = Ok (st', Some r) ->
  is_data line = true /\ emits num_columns st line st' r.
Proof.
  unfold process_line, is_data.
  destruct (first_char line) as [c|]; [|discriminate].
  destruct (is_marker c); simpl; [discriminate|].
  destruct (_ =? num_columns) eqn:Hfull.
  - apply Z.eqb_eq in Hfull.
    destruct (split line) as [|d rest] eqn:Hs; simpl; [discriminate|].
    intros [= <- <-]. split; [reflexivity|].
    apply emits_full; [|assumption].
    unfold token_count. now rewrite Hs.
  - destruct (_ =? num_columns - 1) eqn:Hcont; [|discriminate].
    apply Z.eqb_eq in Hcont.
    destruct (layer st) as [l|] eqn:Hl; [|discriminate].
    destruct (date st) as [d|] eqn:Hd; [|discriminate].
    intros [= <- <-]. split; [reflexivity|].
    now apply emits_continuation.
Qed.

End Iteration.

(** ** The loop and its observation agree *)

Lemma convert_lines_normalize (n : Z) (f : list string) :
  forall i st out,
    convert_lines n i st out f =
    (out ++ rows (emitted (normalize n i st f)), raised (normalize n i st f)).
Proof.
  induction f as [|line f IH]; intros i st out; simpl.
  - now rewrite append_nil_r.
  - destruct (process_line n i st line) as [[st' [r|]]|e]; simpl.
    + rewrite IH. f_equal. now rewrite !append_assoc.
    + apply IH.
    + now rewrite append_nil_r.
Qed.

(** Marker lines leave no trace. *)
Lemma normalize_markers (n : Z) (pre f : list string) :
  forallb is_marker_line pre = true ->
  forall i st,
    normalize n i st (pre ++ f) =
    normalize n (i + Z.of_nat (List.length pre)) st f.
Proof.
  induction pre as [|l pre IH]; intros Hall i st.
  - simpl. now rewrite Z.add_0_r.
  - simpl in Hall. apply andb_true_iff in Hall as [Hl Hpre].
    cbn [app normalize]. rewrite (process_line_marker n i st l Hl).
    rewrite IH by assumption. f_equal. cbn [List.length]. lia.
Qed.

(** An accepted prefix is transparent: the run goes on from its final
    locals, its records first. *)
Lemma normalize_app (n : Z) (pre f : list string) :
  forall i st,
    raised (normalize n i st pre) = None ->
    normalize n i st (pre ++ f) =
    let p := normalize n i st pre in
    let r := normalize n (i + Z.of_nat (List.length pre)) (final p) f in
    Run (emitted p ++ emitted r) (final r) (raised r).
Proof.
  induction pre as [|l pre IH]; intros i st Hok.
  - cbn. rewrite Z.add_0_r. now destruct (normalize n i st f).
  - cbn [app normalize] in *.
    replace (i + Z.of_nat (List.length (l :: pre)))
      with (i + 1 + Z.of_nat (List.length pre)) by (cbn [List.length]; lia).
    destruct (process_line n i st l) as [[st' [r|]]|e]; simpl in *.
    + now rewrite IH.
    + now rewrite IH.
    + discriminate.
Qed.

(** ** Tokens *)

Lemma no_space_app (s t : string) :
  no_space (s ++ t) = no_space s && no_space t.
Proof.
  induction s as [|a s IH]; simpl; [reflexivity|].
  now rewrite IH, andb_assoc.
Qed.

Lemma flush_no_space (tok : string) :
  no_space tok = true -> Forall (fun t => no_space t = true) (flush tok).
Proof. destruct tok; simpl; auto. Qed.

Lemma tokens_no_space (s : string) :
  forall tok, no_space tok = true ->
    Forall (fun t => no_space t = true) (tokens tok s).
Proof.
  induction s as [|c s IH]; intros tok Htok; simpl.
  - now apply flush_no_space.
  - destruct (isspace c) eqn:Hc.
    + apply Forall_app. split; [now apply flush_no_space | now apply IH].
    + apply IH. rewrite no_space_app, Htok. simpl. now rewrite Hc.
Qed.

(** No token of [s.split()] holds a whitespace character. *)
Lemma split_no_space (s : string) :
  Forall (fun t => no_space t = true) (split s).
Proof. now apply tokens_no_space. Qed.

(** A line of whitespace has no token. *)
Lemma split_all_space (s : string) : all_space s = true -> split s = [].
Proof.
  unfold split. induction s as [|c s IH]; simpl; [reflexivity|].
  intros H. apply andb_true_iff in H as [Hc Hs]. rewrite Hc. now apply IH.
Qed.

Lemma uint_no_space (d : Decimal.uint) :
  no_space (NilEmpty.string_of_uint d) = true.
Proof. induction d; simpl; auto. Qed.

Lemma str_no_space (n : Z) : no_space (str n) = true.
Proof.
  unfold str. destruct (Z.to_int n); simpl; apply uint_no_space.
Qed.

(** ** Lines of the csv file *)

Lemma occurs_app (c : ascii) (s t : string) :
  occurs c (s ++ t) = occurs c s || occurs c t.
Proof.
  induction s as [|a s IH]; simpl; [reflexivity|].
  now rewrite IH, orb_assoc.
Qed.

Lemma no_space_occurs (c : ascii) (s : string) :
  isspace c = true -> no_space s = true -> occurs c s = false.
Proof.
  intros Hc. induction s as [|a s IH]; simpl; [reflexivity|].
  intros H. apply andb_true_iff in H as [Ha Hs].
  rewrite (IH Hs), orb_false_r.
  destruct (Ascii.eqb_spec a c) as [->|]; [|reflexivity].
  rewrite Hc in Ha. discriminate.
Qed.

Lemma join_occurs (c : ascii) (sep : string) (l : list string) :
  occurs c sep = false ->
  Forall (fun t => occurs c t = false) l ->
  occurs c (join sep l) = false.
Proof.
  intros Hsep. unfold join.
  induction l as [|x l IH]; intros Hl; [reflexivity|].
  inversion Hl as [|? ? Hx Hl']; subst.
  destruct l as [|y l]; simpl; [assumption|].
  rewrite !occurs_app, Hx, Hsep. simpl. now apply IH.
Qed.

Lemma split_on_absent (c : ascii) (s : string) :
  occurs c s = false -> split_on c s = [s].
Proof.
  induction s as [|a s IH]; simpl; [reflexivity|].
  intros H. apply orb_false_iff in H as [Ha Hs].
  now rewrite Ha, (IH Hs).
Qed.

Lemma split_on_app (c : ascii) (s t : string) :
  occurs c s = false ->
  split_on c (s ++ String c t) = s :: split_on c t.
Proof.
  induction s as [|a s IH]; simpl.
  - intros _. now rewrite Ascii.eqb_refl.
  - intros H. apply orb_false_iff in H as [Ha Hs].
    now rewrite Ha, (IH Hs).
Qed.

(** Cutting the csv file at its newlines gives back what came before the
    records and then one line for each record. *)
Lemma split_on_rows (recs : list (list string)) :
  Forall (fun r => occurs "010" (join "," r) = false) recs ->
  forall s, occurs "010" s = false ->
    split_on "010" (s ++ rows recs) = s :: map (join ",") recs.
Proof.
  induction recs as [|r recs IH]; intros Hrecs s Hs.
  - simpl. rewrite append_nil_r. now apply split_on_absent.
  - inversion Hrecs as [|? ? Hr Hrecs']; subst.
    cbn [rows map]. unfold newline. cbn [append].
    rewrite split_on_app by assumption. f_equal.
    now apply IH.
Qed.

(** ** Accepted runs *)

Lemma normalize_chain (n : Z) (f : list string) :
  forall i st,
    raised (normalize n i st f) = None ->
    chain n st (data_lines f)
      (emitted (normalize n i st f)) (final (normalize n i st f)).
Proof.
  induction f as [|line f IH]; intros i st Hok; cbn [normalize] in *.
  - simpl. auto with headsout.
  - destruct (process_line n i st line) as [[st' [r|]]|e] eqn:Hp.
    + destruct (process_line_emits _ _ _ _ _ _ Hp) as [Hd He].
      cbn [data_lines filter]. fold (data_lines f). rewrite Hd.
      simpl in *. eauto with headsout.
    + destruct (process_line_skip _ _ _ _ _ Hp) as [Hm ->].
      cbn [data_lines filter]. fold (data_lines f).
      replace (is_data line) with false; [now apply IH|].
      unfold is_data, is_marker_line in *.
      destruct (first_char line); [|discriminate]. now rewrite Hm.
    + discriminate.
Qed.

Lemma emits_layer (n : Z) st line st' r :
  emits n st line st' r -> layer st' = layer_of r.
Proof.
  intros [d rest _ _|l d _ _ _]; unfold layer_of; simpl;
    now rewrite int_str.
Qed.

Lemma emits_date (n : Z) st line st' r :
  emits n st line st' r ->
  date st' = if token_count line =? n
             then nth_error (split line) 0 else date st.
Proof.
  intros [d rest Hn Hs|l d Hn _ Hd]; simpl.
  - apply Z.eqb_eq in Hn. now rewrite Hn, Hs.
  - replace (token_count line =? n) with false
      by (symmetry; apply Z.eqb_neq; lia).
    now symmetry.
Qed.

Lemma emits_positive (n : Z) st line st' r :
  emits n st line st' r -> 1 <= n.
Proof.
  intros [d rest Hn Hs|l d Hn _ _]; unfold token_count in Hn.
  - rewrite Hs in Hn. cbn [List.length] in Hn. lia.
  - lia.
Qed.

Lemma chain_length (n : Z) st lines recs st' :
  chain n st lines recs st' -> List.length recs = List.length lines.
Proof. induction 1; simpl; congruence. Qed.

Lemma chain_Forall2 (n : Z) st lines recs st' :
  chain n st lines recs st' ->
  Forall2 (fun line r => exists s s', emits n s line s' r) lines recs.
Proof. induction 1; constructor; eauto. Qed.


Lemma chain_layers (n : Z) st lines recs st' :
  chain n st lines recs st' ->
  forall k line r,
    nth_error lines k = Some line ->
    nth_error recs k = Some r ->
    (token_count line = n -> layer_of r = Some 1) /\
    (token_count line = n - 1 ->
     exists l, prev_layer st recs k = Some l /\ layer_of r = Some (l + 1)).
Proof.
  induction 1 as [|st line0 st1 r0 lines recs st2 He Hc IH];
    intros k line r Hline Hr.
  - destruct k; discriminate.
  - destruct k as [|k]; simpl in Hline, Hr.
    + injection Hline as <-. injection Hr as <-.
      destruct He as [d rest Hn Hs|l d Hn Hl Hd]; unfold layer_of; simpl;
        rewrite int_str; split; intros Hk; try lia; eauto.
    + destruct (IH _ _ _ Hline Hr) as [Hfull Hcont].
      split; [assumption|]. intros Hk.
      destruct (Hcont Hk) as (l & Hprev & Hlay).
      exists l. split; [|assumption].
      destruct k as [|k]; simpl in *.
      * now rewrite <- (emits_layer _ _ _ _ _ He).
      * assumption.
Qed.

Lemma chain_all_full (n : Z) st lines recs st' :
  chain n st lines recs st' ->
  Forall (fun line => token_count line = n) lines ->
  Forall (fun r => layer_of r = Some 1) recs.
Proof.
  induction 1 as [|st line0 st1 r0 lines recs st2 He Hc IH]; intros Hall.
  - constructor.
  - inversion Hall as [|? ? H0 Hrest]; subst. constructor; [|now apply IH].
    destruct He as [d rest Hn Hs|l d Hn Hl Hd]; [|lia].
    unfold layer_of. simpl. now rewrite int_str.
Qed.

Lemma chain_roundtrip (n : Z) st lines recs st' :
  chain n st lines recs st' ->
  forall k line r,
    nth_error lines k = Some line ->
    nth_error recs k = Some r ->
    (token_count line = n -> drop_layer r = split line) /\
    (token_count line = n - 1 ->
     exists d, current_identifier n (date st) (firstn k lines) = Some d /\
               drop_layer r = d :: split line).
Proof.
  induction 1 as [|st line0 st1 r0 lines recs st2 He Hc IH];
    intros k line r Hline Hr.
  - destruct k; discriminate.
  - destruct k as [|k]; simpl in Hline, Hr.
    + injection Hline as <-. injection Hr as <-.
      destruct He as [d rest Hn Hs|l d Hn Hl Hd]; unfold drop_layer; simpl;
        split; intros Hk; try lia; eauto.
    + cbn [firstn current_identifier].
      rewrite <- (emits_date _ _ _ _ _ He). now apply IH.
Qed.


Lemma chain_no_space (n : Z) st lines recs st' :
  chain n st lines recs st' ->
  clean st ->
  Forall (Forall (fun t => no_space t = true)) recs.
Proof.
  induction 1 as [|st line0 st1 r0 lines recs st2 He Hc IH]; intros Hst.
  - constructor.
  - pose proof (split_no_space line0) as Htok.
    destruct He as [d rest Hn Hs|l d Hn Hl Hd].
    + rewrite Hs in Htok. inversion Htok as [|? ? Hd Hrest]; subst.
      constructor; [|now apply IH].
      repeat constructor; auto using str_no_space.
    + unfold clean in Hst. rewrite Hd in Hst.
      constructor; [|now apply IH].
      repeat constructor; auto using str_no_space.
Qed.

(** ** Failing runs *)

(** A run that raised stopped at one line, after a prefix it accepted, and
    emitted the records of that prefix and nothing more. *)
Lemma normalize_raised (n : Z) (f : list string) :
  forall i st e,
    raised (normalize n i st f) = Some e ->
    exists (pre : list string) line post,
      f = (pre ++ line :: post)%list /\
      raised (normalize n i st pre) = None /\
      process_line n (i + Z.of_nat (List.length pre))
        (final (normalize n i st pre)) line = Raise e /\
      emitted (normalize n i st f) = emitted (normalize n i st pre).
Proof.
  induction f as [|l f IH]; intros i st e He; cbn [normalize] in He.
  - discriminate.
  - destruct (process_line n i st l) as [[st' [r|]]|e'] eqn:Hp.
    + simpl in He. destruct (IH _ _ _ He) as (pre & line & post & -> & Hok & Hl & Hem).
      exists (l :: pre), line, post. cbn [app normalize List.length].
      rewrite Hp. simpl. repeat split; try assumption.
      * rewrite <- Hl. f_equal. lia.
      * now rewrite Hem.
    + destruct (IH _ _ _ He) as (pre & line & post & -> & Hok & Hl & Hem).
      exists (l :: pre), line, post. cbn [app normalize List.length].
      rewrite Hp. repeat split; try assumption.
      rewrite <- Hl. f_equal. lia.
    + simpl in He. injection He as <-.
      exists [], l, f. cbn [app normalize List.length].
      rewrite Hp, Z.add_0_r. simpl. now rewrite Hp.
Qed.

(** ** The header scan *)

Lemma last_cons {A} (l : list A) :
  forall x d, last (x :: l) d = last l x.
Proof.
  induction l as [|y l IH]; intros x d; [reflexivity|].
  change (last (x :: y :: l) d) with (last (y :: l) d).
  now rewrite !IH.
Qed.

Lemma header_scan_markers (f : list string) :
  forallb is_marker_line f = true ->
  forall p, header_scan p f = Ok None.
Proof.
  induction f as [|l f IH]; intros Hall p; [reflexivity|].
  simpl in Hall. apply andb_true_iff in Hall as [Hl Hf].
  destruct (first_char_marker _ Hl) as (c & Hc & Hm).
  simpl. rewrite Hc, Hm. simpl. now apply IH.
Qed.

(** A header is found at the first data line, from the marker line just
    above it. *)
Lemma header_scan_found (f : list string) :
  forall p header,
    header_scan p f = Ok (Some header) ->
    exists (pre : list string) line post above,
      f = (pre ++ line :: post)%list /\
      forallb is_marker_line pre = true /\
      is_data line = true /\
      last (map Some pre) p = Some above /\
      header = skipn 1 (split above).
Proof.
  induction f as [|l f IH]; intros p header H; simpl in H; [discriminate|].
  destruct (first_char l) as [c|] eqn:Hc; [|discriminate].
  destruct (is_marker c) eqn:Hm; simpl in H.
  - destruct (IH _ _ H) as (pre & line & post & above & -> & Hpre & Hd & Hlast & Hh).
    exists (l :: pre), line, post, above. repeat split; try assumption.
    + simpl. unfold is_marker_line at 1. now rewrite Hc, Hm.
    + cbn [map]. now rewrite last_cons.
  - destruct p as [p|]; [|discriminate]. injection H as <-.
    exists [], l, f, p. repeat split.
    unfold is_data. now rewrite Hc, Hm.
Qed.

Lemma header_found_data (f : list string) (header : list string) :
  get_header_from_headsout_file f = Ok (Some header) ->
  data_lines f <> [] /\ Forall (fun t => no_space t = true) header.
Proof.
  intros H. destruct (header_scan_found _ _ _ H)
    as (pre & line & post & above & -> & _ & Hd & _ & ->).
  split.
  - unfold data_lines. rewrite filter_app. simpl. rewrite Hd.
    intros Habs. apply app_eq_nil in Habs as [_ Habs]. discriminate.
  - pose proof (split_no_space above) as Hs.
    destruct (split above); simpl; [constructor|].
    now inversion Hs.
Qed.

(** ** [headsout_to_csv] in terms of the run *)

Lemma headsout_to_csv_run (f : list string) (header : list string) :
  get_header_from_headsout_file f = Ok (Some header) ->
  let R := normalize (Z.of_nat (List.length header)) 0 unbound f in
  headsout_to_csv f =
  (Some (join "," (insert 1 "Layer" header) ++ rows (emitted R)), raised R).
Proof.
  intros H R. unfold headsout_to_csv. rewrite H.
  now rewrite convert_lines_normalize.
Qed.

Lemma headsout_to_csv_opened (f : list string) out e :
  headsout_to_csv f = (Some out, e) ->
  exists header, get_header_from_headsout_file f = Ok (Some header).
Proof.
  unfold headsout_to_csv.
  destruct (get_header_from_headsout_file f) as [[header|]|e']; try discriminate.
  eauto.
Qed.

(** The lines of a file are never empty. *)
Lemma iter_lines_nonempty (s : string) :
  Forall (fun l => l <> EmptyString) (iter_lines s).
Proof.
  induction s as [|c s IH]; simpl; [constructor|].
  destruct (Ascii.eqb c "010").
  - constructor; [discriminate | assumption].
  - destruct (iter_lines s) as [|l ls].
    + repeat constructor. discriminate.
    + inversion IH; subst. constructor; [discriminate | assumption].
Qed.

(** A line that is there and is not data starts with the marker. *)
Lemma not_data_marker (l : string) :
  l <> EmptyString -> is_data l = false -> is_marker_line l = true.
Proof.
  unfold is_data, is_marker_line, first_char.
  destruct l as [|c l]; [congruence|]. simpl.
  intros _ H. now apply negb_false_iff.
Qed.

Lemma no_data_all_markers (f : list string) :
  Forall (fun l => l <> EmptyString) f ->
  data_lines f = [] ->
  forallb is_marker_line f = true.
Proof.
  induction 1 as [|l f Hl Hf IH]; [reflexivity|].
  unfold data_lines. simpl. destruct (is_data l) eqn:Hd; [discriminate|].
  intros Hnil. rewrite (not_data_marker _ Hl Hd). now apply IH.
Qed.

(** * The properties of the specification *)

(** ** Layer numbering *)

(** C1. In a run that raises nothing the Layer field follows the run-length
    rule.  The csv file is the header line and then the rows of the records
    [recs], one for each data line, and for the [k]-th data line and its
    record: a Full line (as many tokens as columns) gives Layer 1; a
    Continuation line (one token fewer) is not the first, and its Layer is
    one more than the Layer of the record just before it.  When every data
    line is Full, every record has Layer 1. *)
Theorem layer_run_length (f : list string) (header : list string)
  (out : string) :
  get_header_from_headsout_file f = Ok (Some header) ->
  headsout_to_csv f = (Some out, None) ->
  let n := Z.of_nat (List.length header) in
  let recs := emitted (normalize n 0 unbound f) in
  out = join "," (insert 1 "Layer" header) ++ rows recs /\
  List.length recs = List.length (data_lines f) /\
  (forall k line r,
      nth_error (data_lines f) k = Some line ->
      nth_error recs k = Some r ->
      (token_count line = n -> layer_of r = Some 1) /\
      (token_count line = n - 1 ->
       exists k' r' l,
         k = S k' /\ nth_error recs k' = Some r' /\
         layer_of r' = Some l /\ layer_of r = Some (l + 1))) /\
  (Forall (fun line => token_count line = n) (data_lines f) ->
   Forall (fun r => layer_of r = Some 1) recs).
Proof.
  intros Hh Hrun n recs.
  rewrite (headsout_to_csv_run _ _ Hh) in Hrun.
  injection Hrun as Hout Hok. fold n in Hout, Hok. fold recs in Hout.
  pose proof (normalize_chain n f 0 unbound Hok) as Hc. fold recs in Hc.
  split; [now symmetry|].
  split; [now apply chain_length in Hc|].
  split.
  - intros k line r Hline Hr.
    destruct (chain_layers _ _ _ _ _ Hc _ _ _ Hline Hr) as [Hfull Hcont].
    split; [assumption|]. intros Hk.
    destruct (Hcont Hk) as (l & Hprev & Hlay).
    destruct k as [|k']; simpl in Hprev; [discriminate|].
    destruct (nth_error recs k') as [r'|] eqn:Hr'; [|discriminate].
    exists k', r', l. auto.
  - now apply chain_all_full with (1 := Hc).
Qed.

Lemma layer_run_length_witness :
  let header := ["TIME"; "1"; "2"] in
  let out := "TIME,Layer,1,2
01/31/2000_24:00,1,1.1,2.2
01/31/2000_24:00,2,3.3,4.4" in
  let n := Z.of_nat (List.length header) in
  let recs := emitted (normalize n 0 unbound two_layers) in
  out = join "," (insert 1 "Layer" header) ++ rows recs /\
  List.length recs = List.length (data_lines two_layers) /\
  (forall k line r,
      nth_error (data_lines two_layers) k = Some line ->
      nth_error recs k = Some r ->
      (token_count line = n -> layer_of r = Some 1) /\
      (token_count line = n - 1 ->
       exists k' r' l,
         k = S k' /\ nth_error recs k' = Some r' /\
         layer_of r' = Some l /\ layer_of r = Some (l + 1))) /\
  (Forall (fun line => token_count line = n) (data_lines two_layers) ->
   Forall (fun r => layer_of r = Some 1) recs).
Proof.
  intros header out.
  apply (layer_run_length two_layers header out); vm_compute; reflexivity.
Defined.

(** ** Round trip *)

(** C5. Every data line the run accepts, whether or not a later line makes
    it fail, comes back from its record once the Layer field is taken out:
    a Full line gives exactly its tokens, a Continuation line gives its
    tokens behind the identifier it inherits, which is the first token of
    the most recent Full line before it. *)
Theorem record_roundtrip (pre post : list string) (header : list string) :
  get_header_from_headsout_file (pre ++ post) = Ok (Some header) ->
  let n := Z.of_nat (List.length header) in
  raised (normalize n 0 unbound pre) = None ->
  let recs := emitted (normalize n 0 unbound (pre ++ post)) in
  fst (headsout_to_csv (pre ++ post))
    = Some (join "," (insert 1 "Layer" header) ++ rows recs) /\
  forall k line,
    nth_error (data_lines pre) k = Some line ->
    exists r,
      nth_error recs k = Some r /\
      (token_count line = n -> drop_layer r = split line) /\
      (token_count line = n - 1 ->
       exists d,
         current_identifier n None (firstn k (data_lines pre)) = Some d /\
         drop_layer r = d :: split line).
Proof.
  intros Hh n Hok recs.
  split; [now rewrite (headsout_to_csv_run _ _ Hh)|].
  intros k line Hline.
  pose proof (normalize_chain n pre 0 unbound Hok) as Hc.
  assert (Hk : (k < List.length (emitted (normalize n 0 unbound pre)))%nat).
  { rewrite (chain_length _ _ _ _ _ Hc). apply nth_error_Some. congruence. }
  destruct (nth_error (emitted (normalize n 0 unbound pre)) k) as [r|] eqn:Hr;
    [|apply nth_error_None in Hr; lia].
  exists r. split.
  - unfold recs. rewrite (normalize_app n pre post 0 unbound Hok). simpl.
    now rewrite nth_error_app1.
  - exact (chain_roundtrip _ _ _ _ _ Hc _ _ _ Hline Hr).
Qed.

Lemma record_roundtrip_witness :
  let pre := firstn 4 long_line in
  let post := skipn 4 long_line in
  let n := Z.of_nat (List.length ["TIME"; "1"; "2"]) in
  let recs := emitted (normalize n 0 unbound (pre ++ post)) in
  fst (headsout_to_csv (pre ++ post))
    = Some (join "," (insert 1 "Layer" ["TIME"; "1"; "2"]) ++ rows recs) /\
  forall k line,
    nth_error (data_lines pre) k = Some line ->
    exists r,
      nth_error recs k = Some r /\
      (token_count line = n -> drop_layer r = split line) /\
      (token_count line = n - 1 ->
       exists d,
         current_identifier n None (firstn k (data_lines pre)) = Some d /\
         drop_layer r = d :: split line).
Proof.
  intros pre post.
  apply (record_roundtrip pre post ["TIME"; "1"; "2"]);
    vm_compute; reflexivity.
Defined.

(** ** Output discipline *)

(** C6. In a run that raises nothing the header has a first field, the csv
    file is the header fields with [Layer] put in second place and joined by
    commas, followed by a newline and the comma-joined fields of each record;
    nothing is quoted or escaped.  Cut at its newlines the file is the header
    line, once and first, and then one line for each record; and the records
    are those of the data lines, one for each, in their order. *)
Theorem output_discipline (f : list string) (header : list string)
  (out : string) :
  get_header_from_headsout_file f = Ok (Some header) ->
  headsout_to_csv f = (Some out, None) ->
  let n := Z.of_nat (List.length header) in
  let recs := emitted (normalize n 0 unbound f) in
  exists h0 hrest,
    header = h0 :: hrest /\
    out = join "," (h0 :: "Layer" :: hrest) ++ rows recs /\
    split_on "010" out
      = join "," (h0 :: "Layer" :: hrest) :: map (join ",") recs /\
    Forall2 (fun line r => exists st st', emits n st line st' r)
      (data_lines f) recs.
Proof.
  intros Hh Hrun n recs.
  rewrite (headsout_to_csv_run _ _ Hh) in Hrun.
  injection Hrun as Hout Hok. fold n in Hout, Hok. fold recs in Hout.
  pose proof (normalize_chain n f 0 unbound Hok) as Hc. fold recs in Hc.
  destruct (header_found_data _ _ Hh) as [Hdata Hclean].
  assert (Hn : 1 <= n).
  { inversion Hc as [|? ? ? ? ? ? ? He]; [congruence|].
    exact (emits_positive _ _ _ _ _ He). }
  destruct header as [|h0 hrest]; [simpl in n; lia|].
  exists h0, hrest. rewrite insert_1_cons in Hout.
  split; [reflexivity|]. split; [now symmetry|].
  split; [|exact (chain_Forall2 _ _ _ _ _ Hc)].
  subst out. apply split_on_rows.
  - pose proof (chain_no_space _ _ _ _ _ Hc I) as Hrecs.
    eapply Forall_impl; [|exact Hrecs].
    intros r Hr. apply join_occurs; [reflexivity|].
    eapply Forall_impl; [|exact Hr].
    intros t Ht. now apply no_space_occurs.
  - apply join_occurs; [reflexivity|].
    inversion Hclean as [|? ? H0 Hrest]; subst.
    repeat constructor.
    + now apply no_space_occurs.
    + eapply Forall_impl; [|exact Hrest].
      intros t Ht. now apply no_space_occurs.
Qed.

Lemma output_discipline_witness :
  let header := ["TIME"; "1"; "2"] in
  let out := "TIME,Layer,1,2
01/31/2000_24:00,1,1.1,2.2
01/31/2000_24:00,2,3.3,4.4" in
  let n := Z.of_nat (List.length header) in
  let recs := emitted (normalize n 0 unbound two_layers) in
  exists h0 hrest,
    header = h0 :: hrest /\
    out = join "," (h0 :: "Layer" :: hrest) ++ rows recs /\
    split_on "010" out
      = join "," (h0 :: "Layer" :: hrest) :: map (join ",") recs /\
    Forall2 (fun line r => exists st st', emits n st line st' r)
      (data_lines two_layers) recs.
Proof.
  intros header out.
  apply (output_discipline two_layers header out); vm_compute; reflexivity.
Defined.

(** ** Errors *)

(** C3. A data line whose token count is neither the number of columns nor
    one less raises [ValueError], whatever the locals, with the message that
    names the line by its index over all lines of the file plus one; and when
    the lines before it in the file were accepted, that is how the call
    ends. *)
Theorem shape_error_line (pre post : list string) (line : string)
  (header : list string) :
  get_header_from_headsout_file (pre ++ line :: post) = Ok (Some header) ->
  let n := Z.of_nat (List.length header) in
  raised (normalize n 0 unbound pre) = None ->
  is_data line = true ->
  token_count line <> n ->
  token_count line <> n - 1 ->
  (forall i st,
      process_line n i st line
      = Raise (ValueError
                 ("line " ++ str (i + 1)
                  ++ " in file does not have the correct number of values")))
  /\
  snd (headsout_to_csv (pre ++ line :: post))
  = Some (ValueError
            ("line " ++ str (Z.of_nat (List.length pre) + 1)
             ++ " in file does not have the correct number of values")).
Proof.
  intros Hh n Hok Hd Hn Hn1.
  assert (Hstep : forall i st,
             process_line n i st line = Raise (ValueError (shape_message i)))
    by (intros; now apply process_line_shape).
  split; [exact Hstep|].
  rewrite (headsout_to_csv_run _ _ Hh). fold n.
  rewrite (normalize_app n pre (line :: post) 0 unbound Hok).
  cbn [snd raised normalize]. rewrite Hstep. reflexivity.
Qed.

Lemma shape_error_line_witness :
  let pre := firstn 4 long_line in
  let post := skipn 5 long_line in
  let line := nth 4 long_line EmptyString in
  let n := Z.of_nat (List.length ["TIME"; "1"; "2"]) in
  (forall i st,
      process_line n i st line
      = Raise (ValueError
                 ("line " ++ str (i + 1)
                  ++ " in file does not have the correct number of values")))
  /\
  snd (headsout_to_csv (pre ++ line :: post))
  = Some (ValueError
            ("line " ++ str (Z.of_nat (List.length pre) + 1)
             ++ " in file does not have the correct number of values")).
Proof.
  intros pre post line.
  apply (shape_error_line pre post line ["TIME"; "1"; "2"]);
    vm_compute; (reflexivity || discriminate).
Defined.

(** C4. When the first data line of the file has one token fewer than the
    number of columns, so that no Full line comes before it, the call fails:
    only the header line has been written, and reading the layer counter,
    which nothing has set, raises [UnboundLocalError] (a [NameError]), the
    error the specification calls SequenceError. *)
Theorem orphan_continuation (pre post : list string) (line : string)
  (header : list string) :
  get_header_from_headsout_file (pre ++ line :: post) = Ok (Some header) ->
  let n := Z.of_nat (List.length header) in
  forallb is_marker_line pre = true ->
  is_data line = true ->
  token_count line = n - 1 ->
  headsout_to_csv (pre ++ line :: post)
  = (Some (join "," (insert 1 "Layer" header)),
     Some (UnboundLocalError "layer")).
Proof.
  intros Hh n Hpre Hd Hn.
  rewrite (headsout_to_csv_run _ _ Hh). fold n.
  rewrite (normalize_markers n pre (line :: post) Hpre).
  cbn [normalize].
  rewrite (process_line_orphan n _ unbound line Hd Hn eq_refl).
  simpl. now rewrite append_nil_r.
Qed.

Lemma orphan_continuation_witness :
  let pre := firstn 1 orphan in
  let post := skipn 2 orphan in
  let line := nth 1 orphan EmptyString in
  headsout_to_csv (pre ++ line :: post)
  = (Some (join "," (insert 1 "Layer" ["TIME"; "1"; "2"])),
     Some (UnboundLocalError "layer")).
Proof.
  intros pre post line.
  apply (orphan_continuation pre post line ["TIME"; "1"; "2"]);
    vm_compute; reflexivity.
Defined.

(** C8. A call that fails inside the loop, on a wrong token count, on a
    Continuation line with no layer counter set, or otherwise, fails at one
    line of the file.  The lines before it were accepted, and the csv file is
    exactly what converting those lines alone leaves: the header line and the
    whole row of each of their data lines, and not a character for the line
    that failed. *)
Theorem failure_atomic (f : list string) (out : string) (e : exn) :
  headsout_to_csv f = (Some out, Some e) ->
  exists header (pre : list string) line post,
    get_header_from_headsout_file f = Ok (Some header) /\
    f = (pre ++ line :: post)%list /\
    let n := Z.of_nat (List.length header) in
    let p := normalize n 0 unbound pre in
    raised p = None /\
    process_line n (Z.of_nat (List.length pre)) (final p) line = Raise e /\
    out = join "," (insert 1 "Layer" header) ++ rows (emitted p) /\
    List.length (emitted p) = List.length (data_lines pre) /\
    convert_lines n 0 unbound (join "," (insert 1 "Layer" header)) pre
      = (out, None).
Proof.
  intros Hrun.
  destruct (headsout_to_csv_opened _ _ _ Hrun) as [header Hh].
  rewrite (headsout_to_csv_run _ _ Hh) in Hrun.
  injection Hrun as Hout He.
  destruct (normalize_raised _ _ _ _ _ He)
    as (pre & line & post & Hf & Hok & Hline & Hem).
  exists header, pre, line, post.
  split; [assumption|]. split; [assumption|].
  intros n p. fold n in Hok, Hline, Hem, Hout. fold p in Hok, Hline, Hem.
  rewrite Hem in Hout.
  split; [assumption|]. split; [assumption|].
  split; [now symmetry|].
  split.
  - exact (chain_length _ _ _ _ _ (normalize_chain n pre 0 unbound Hok)).
  - rewrite convert_lines_normalize. fold p. now rewrite Hout, Hok.
Qed.

Lemma failure_atomic_witness :
  let out := "TIME,Layer,1,2
01/31/2000_24:00,1,1.1,2.2
01/31/2000_24:00,2,3.3,4.4" in
  let e :=
    ValueError "line 5 in file does not have the correct number of values" in
  exists header (pre : list string) line post,
    get_header_from_headsout_file long_line = Ok (Some header) /\
    long_line = (pre ++ line :: post)%list /\
    let n := Z.of_nat (List.length header) in
    let p := normalize n 0 unbound pre in
    raised p = None /\
    process_line n (Z.of_nat (List.length pre)) (final p) line = Raise e /\
    out = join "," (insert 1 "Layer" header) ++ rows (emitted p) /\
    List.length (emitted p) = List.length (data_lines pre) /\
    convert_lines n 0 unbound (join "," (insert 1 "Layer" header)) pre
      = (out, None).
Proof.
  intros out e.
  apply (failure_atomic long_line out e); vm_compute; reflexivity.
Defined.

(** ** Header extraction *)

(** C7. On a file with no data line, the empty file and a file of marker
    lines only among them, [get_header_from_headsout_file] returns [None]
    and raises nothing. *)
Theorem no_data_no_header (f : list string) :
  Forall (fun l => l <> EmptyString) f ->
  data_lines f = [] ->
  get_header_from_headsout_file f = Ok None.
Proof.
  intros Hlines Hdata.
  apply header_scan_markers. now apply no_data_all_markers.
Qed.

Lemma no_data_no_header_witness :
  get_header_from_headsout_file comments_only = Ok None.
Proof.
  apply (no_data_no_header comments_only).
  - vm_compute. repeat constructor; discriminate.
  - vm_compute; reflexivity.
Defined.

(** C9. On a file whose first line is a data line
    [get_header_from_headsout_file] returns [None], data or not: no line has
    been remembered yet, and the [NameError] of reading it is caught. *)
Theorem data_first_no_header (line : string) (f : list string) :
  is_data line = true ->
  get_header_from_headsout_file (line :: f) = Ok None.
Proof.
  intros Hd. destruct (first_char_data _ Hd) as (c & Hc & Hm).
  unfold get_header_from_headsout_file. simpl. now rewrite Hc, Hm.
Qed.

Lemma data_first_no_header_witness :
  let line := nth 0 data_first EmptyString in
  get_header_from_headsout_file (line :: skipn 1 data_first) = Ok None.
Proof.
  intros line.
  apply (data_first_no_header line (skipn 1 data_first)).
  vm_compute; reflexivity.
Defined.

(** ** Blank lines *)

(** C10. Only the first character decides whether a line is a marker line,
    so a line of nothing but whitespace, a bare newline for one, is a data
    line.  It has no token.  With two columns or more it raises the
    [ValueError] of a wrong token count; with one column it takes the
    Continuation branch, which yields the inherited identifier and the next
    layer when a Full line came before and fails on the unset layer counter
    when none did. *)
Theorem blank_line (line : string) :
  line <> EmptyString ->
  all_space line = true ->
  is_data line = true /\
  split line = [] /\
  (forall n i st,
      2 <= n ->
      process_line n i st line = Raise (ValueError (shape_message i))) /\
  (forall i l d,
      process_line 1 i (Locals (Some l) (Some d)) line
      = Ok (Locals (Some (l + 1)) (Some d), Some [d; str (l + 1)])) /\
  (forall i d,
      process_line 1 i (Locals None d) line
      = Raise (UnboundLocalError "layer")).
Proof.
  intros Hne Hall.
  assert (Hs : split line = []) by now apply split_all_space.
  assert (Hd : is_data line = true).
  { destruct line as [|c line]; [congruence|].
    simpl in Hall. apply andb_true_iff in Hall as [Hc _].
    unfold is_data, first_char. simpl. unfold is_marker.
    destruct (Ascii.eqb_spec c "*") as [->|]; [discriminate | reflexivity]. }
  assert (Hcount : token_count line = 0)
    by (unfold token_count; now rewrite Hs).
  split; [assumption|]. split; [assumption|].
  split; [|split].
  - intros n i st Hn. apply process_line_shape; [assumption| |]; lia.
  - intros i l d. destruct (first_char_data _ Hd) as (c & Hc & Hm).
    unfold process_line. rewrite Hc, Hm, Hs. reflexivity.
  - intros i d. now apply process_line_orphan.
Qed.

Lemma blank_line_witness :
  is_data newline = true /\
  split newline = [] /\
  (forall n i st,
      2 <= n ->
      process_line n i st newline = Raise (ValueError (shape_message i))) /\
  (forall i l d,
      process_line 1 i (Locals (Some l) (Some d)) newline
      = Ok (Locals (Some (l + 1)) (Some d), Some [d; str (l + 1)])) /\
  (forall i d,
      process_line 1 i (Locals None d) newline
      = Raise (UnboundLocalError "layer")).
Proof.
  apply (blank_line newline); [discriminate | reflexivity].
Defined.

(** ** The scenario of the specification *)

(** C2. The scenario as the specification has it does not hold: on the header
    line [* 1 DATE NODE1 NODE2] the extraction does not return the three
    names, and the data line gives no record. *)
Lemma indexed_header_counterexample :
  ~ (get_header_from_headsout_file indexed_header
       = Ok (Some ["DATE"; "NODE1"; "NODE2"]) /\
     headsout_to_csv indexed_header
       = (Some "DATE,Layer,NODE1,NODE2
01/01/2000_0000,1,1.1,2.2", None)).
Proof.
  intros [H _]. vm_compute in H. discriminate.
Qed.

(** C2, amended. Header extraction drops the first token of the header
    line, the marker itself, and nothing more.  On the header line
    [* 1 DATE NODE1 NODE2] it returns [1], [DATE], [NODE1], [NODE2]; the header
    line written is [1,Layer,DATE,NODE1,NODE2], and the data line
    [01/01/2000_0000 1.1 2.2], one token short of the four columns, is taken
    for a Continuation line and fails on the unset layer counter.  On the
    header line [* DATE NODE1 NODE2] extraction returns [DATE], [NODE1],
    [NODE2], the header line written is [DATE,Layer,NODE1,NODE2], and the
    same data line, a Full line, yields the record [01/01/2000_0000], [1],
    [1.1], [2.2]. *)
Theorem scenario_amended :
  get_header_from_headsout_file indexed_header
    = Ok (Some ["1"; "DATE"; "NODE1"; "NODE2"]) /\
  headsout_to_csv indexed_header
    = (Some "1,Layer,DATE,NODE1,NODE2", Some (UnboundLocalError "layer")) /\
  get_header_from_headsout_file plain_header
    = Ok (Some ["DATE"; "NODE1"; "NODE2"]) /\
  insert 1 "Layer" ["DATE"; "NODE1"; "NODE2"]
    = ["DATE"; "Layer"; "NODE1"; "NODE2"] /\
  emitted (normalize 3 0 unbound plain_header)
    = [["01/01/2000_0000"; "1"; "1.1"; "2.2"]] /\
  headsout_to_csv plain_header
    = (Some "DATE,Layer,NODE1,NODE2
01/01/2000_0000,1,1.1,2.2", None).
Proof.
  repeat split; vm_compute; reflexivity.
Qed.

(** * Further properties of the code *)

(** ** Where the header comes from *)

Lemma header_scan_skip (pre : list string) :
  forallb is_marker_line pre = true ->
  forall p rest,
    header_scan p (pre ++ rest) = header_scan (last (map Some pre) p) rest.
Proof.
  induction pre as [|l pre IH]; intros Hall p rest; [reflexivity|].
  simpl in Hall. apply andb_true_iff in Hall as [Hl Hpre].
  destruct (first_char_marker _ Hl) as (c & Hc & Hm).
  cbn [app header_scan map]. rewrite Hc, Hm. cbn [negb].
  rewrite (IH Hpre). now rewrite last_cons.
Qed.

Lemma header_scan_total (f : list string) :
  forallb nonempty f = true ->
  forall p, exists h, header_scan p f = Ok h.
Proof.
  induction f as [|l f IH]; intros Hne p; [now exists None|].
  simpl in Hne. apply andb_true_iff in Hne as [Hl Hf].
  destruct l as [|c l]; [discriminate|].
  cbn [header_scan first_char get].
  destruct (is_marker c); cbn [negb].
  - now apply IH.
  - destruct p; eauto.
Qed.

Lemma header_scan_none (f : list string) :
  forall p, header_scan (Some p) f = Ok None ->
            forallb is_marker_line f = true.
Proof.
  induction f as [|l f IH]; intros p H; [reflexivity|].
  simpl in H. destruct (first_char l) as [c|] eqn:Hc; [|discriminate].
  destruct (is_marker c) eqn:Hm; simpl in H; [|discriminate].
  simpl. unfold is_marker_line at 1. rewrite Hc, Hm. simpl. eauto.
Qed.

Lemma markers_no_data (f : list string) :
  forallb is_marker_line f = true -> data_lines f = [].
Proof.
  induction f as [|l f IH]; intros Hall; [reflexivity|].
  simpl in Hall. apply andb_true_iff in Hall as [Hl Hf].
  destruct (first_char_marker _ Hl) as (c & Hc & Hm).
  unfold data_lines. simpl. unfold is_data at 1. rewrite Hc, Hm. simpl.
  now apply IH.
Qed.

Lemma iter_lines_all_nonempty (text : string) :
  forallb nonempty (iter_lines text) = true.
Proof.
  induction text as [|c s IH]; simpl; [reflexivity|].
  destruct (Ascii.eqb c "010"); simpl; [assumption|].
  destruct (iter_lines s) as [|l ls]; [reflexivity|].
  simpl in *. now apply andb_true_iff in IH as [_ ->].
Qed.

Lemma nonempty_not_data (l : string) :
  nonempty l = true -> is_data l = false -> is_marker_line l = true.
Proof.
  destruct l as [|c l]; [discriminate|].
  unfold is_data, is_marker_line. simpl.
  intros _ H. now apply negb_false_iff.
Qed.

(** X1. The header is the row above the first row of data: when marker
    lines only come first, the last of them minus its first token (the
    marker) is the header, whatever the file holds from the first data line
    on. *)
Theorem header_row_above (pre post : list string) (above line : string) :
  forallb is_marker_line pre = true ->
  is_marker_line above = true ->
  is_data line = true ->
  get_header_from_headsout_file (pre ++ above :: line :: post)
  = Ok (Some (skipn 1 (split above))).
Proof.
  intros Hpre Habove Hline.
  unfold get_header_from_headsout_file.
  rewrite (header_scan_skip pre Hpre).
  destruct (first_char_marker _ Habove) as (c & Hc & Hm).
  destruct (first_char_data _ Hline) as (d & Hd & Hmd).
  cbn [header_scan]. rewrite Hc, Hm. cbn [negb header_scan].
  now rewrite Hd, Hmd.
Qed.

Lemma header_row_above_witness :
  let pre := firstn 1 two_layers in
  let above := nth 1 two_layers EmptyString in
  let line := nth 2 two_layers EmptyString in
  let post := skipn 3 two_layers in
  get_header_from_headsout_file (pre ++ above :: line :: post)
  = Ok (Some (skipn 1 (split above))).
Proof.
  intros pre above line post.
  apply (header_row_above pre post above line); vm_compute; reflexivity.
Defined.

(** X2. On the lines of a text file header extraction raises nothing:
    whatever the text, it returns a header or [None]. *)
Theorem header_never_raises (text : string) :
  exists h, get_header_from_headsout_file (iter_lines text) = Ok h.
Proof.
  apply header_scan_total, iter_lines_all_nonempty.
Qed.

(** X3. [headsout_to_csv] ends in the [TypeError] of [len(None)] without
    opening the csv file exactly when the headsout file has no data line or
    starts with one. *)
Theorem csv_not_opened (text : string) :
  let f := iter_lines text in
  headsout_to_csv f = (None, Some TypeError) <->
  (data_lines f = [] \/
   exists line rest, f = line :: rest /\ is_data line = true).
Proof.
  intros f. pose proof (iter_lines_all_nonempty text) as Hne. fold f in Hne.
  unfold headsout_to_csv, get_header_from_headsout_file. split.
  - destruct (header_scan None f) as [[h|]|e] eqn:Hs.
    + destruct (convert_lines _ _ _ _ _); discriminate.
    + intros _. destruct f as [|l f']; [now left|].
      simpl in Hs. destruct (first_char l) as [c|] eqn:Hc; [|discriminate].
      destruct (is_marker c) eqn:Hm; simpl in Hs.
      * left. apply markers_no_data. simpl.
        unfold is_marker_line at 1. rewrite Hc, Hm. simpl.
        exact (header_scan_none _ _ Hs).
      * right. exists l, f'. split; [reflexivity|].
        unfold is_data. now rewrite Hc, Hm.
    + destruct (header_scan_total f Hne None) as [h Hh]. congruence.
  - intros [Hnone|(line & rest & Hf & Hd)].
    + rewrite header_scan_markers; [reflexivity|].
      clear -Hne Hnone. induction f as [|l f IH]; [reflexivity|].
      simpl in Hne. apply andb_true_iff in Hne as [Hl Hf].
      unfold data_lines in Hnone. simpl in Hnone.
      destruct (is_data l) eqn:Hd; [discriminate|].
      simpl. rewrite (nonempty_not_data _ Hl Hd). now apply IH.
    + rewrite Hf. destruct (first_char_data _ Hd) as (c & Hc & Hm).
      simpl. now rewrite Hc, Hm.
Qed.



(** ** The shape of the csv file *)






(** ** What an exception tells *)

Lemma process_line_value_error (n i : Z) st line msg :
  process_line n i st line = Raise (ValueError msg) ->
  msg = shape_message i /\ is_data line = true /\
  token_count line <> n /\ token_count line <> n - 1.
Proof.
  unfold process_line, is_data, token_count.
  destruct (first_char line) as [c|]; [|discriminate].
  destruct (is_marker c); simpl; [discriminate|].
  destruct (_ =? n) eqn:Hfull.
  - destruct (split line); simpl; discriminate.
  - destruct (_ =? n - 1) eqn:Hcont.
    + destruct (layer st); [|discriminate].
      destruct (date st); discriminate.
    + intros [= <-]. apply Z.eqb_neq in Hfull, Hcont. auto.
Qed.

Lemma process_line_unbound (n i : Z) st line name :
  process_line n i st line = Raise (UnboundLocalError name) ->
  is_data line = true /\ token_count line = n - 1 /\
  ((layer st = None /\ name = "layer") \/
   (layer st <> None /\ date st = None)).
Proof.
  unfold process_line, is_data, token_count.
  destruct (first_char line) as [c|]; [|discriminate].
  destruct (is_marker c); simpl; [discriminate|].
  destruct (_ =? n) eqn:Hfull.
  - destruct (split line); simpl; discriminate.
  - destruct (_ =? n - 1) eqn:Hcont; [|discriminate].
    apply Z.eqb_eq in Hcont.
    destruct (layer st) as [l|] eqn:Hl.
    + destruct (date st); [discriminate|].
      intros _. repeat split; auto. right. split; [discriminate | reflexivity].
    + intros [= <-]. repeat split; auto.
Qed.

Lemma chain_nil_inv (n : Z) st recs st' :
  chain n st [] recs st' -> recs = [] /\ st' = st.
Proof. inversion 1; auto. Qed.

Lemma chain_bound (n : Z) st lines recs st' :
  chain n st lines recs st' ->
  lines <> [] ->
  exists l d, st' = Locals (Some l) (Some d).
Proof.
  induction 1 as [|st line0 st1 r0 lines recs st2 He Hc IH]; [congruence|].
  intros _. destruct lines as [|x lines].
  - apply chain_nil_inv in Hc as [_ ->].
    destruct He; eauto.
  - apply IH. discriminate.
Qed.

Lemma accepted_markers (n : Z) (pre : list string) :
  forall i st,
    raised (normalize n i st pre) = None ->
    data_lines pre = [] ->
    forallb is_marker_line pre = true.
Proof.
  induction pre as [|l pre IH]; intros i st Hok Hnone; [reflexivity|].
  cbn [normalize] in Hok.
  destruct (process_line n i st l) as [[st' [r|]]|e] eqn:Hp.
  - destruct (process_line_emits _ _ _ _ _ _ Hp) as [Hd _].
    unfold data_lines in Hnone. simpl in Hnone. rewrite Hd in Hnone.
    discriminate.
  - destruct (process_line_skip _ _ _ _ _ Hp) as [Hm ->].
    simpl. rewrite Hm. simpl. apply (IH _ _ Hok).
    unfold data_lines in *. simpl in Hnone.
    destruct (is_data l); [discriminate | assumption].
  - discriminate.
Qed.

(** X6. The [ValueError] can be trusted: when the call ends with it, the
    message is that of the line number it names, counted from one over all
    the lines of the file, and that line is a data line with neither as many
    tokens as columns nor one fewer. *)
Theorem value_error_truthful (f : list string) (out msg : string) :
  headsout_to_csv f = (Some out, Some (ValueError msg)) ->
  exists header k line,
    get_header_from_headsout_file f = Ok (Some header) /\
    nth_error f k = Some line /\
    msg = "line " ++ str (Z.of_nat k + 1)
          ++ " in file does not have the correct number of values" /\
    is_data line = true /\
    token_count line <> Z.of_nat (List.length header) /\
    token_count line <> Z.of_nat (List.length header) - 1.
Proof.
  intros Hrun.
  destruct (headsout_to_csv_opened _ _ _ Hrun) as [header Hh].
  rewrite (headsout_to_csv_run _ _ Hh) in Hrun.
  injection Hrun as _ He.
  destruct (normalize_raised _ _ _ _ _ He)
    as (pre & line & post & -> & _ & Hline & _).
  destruct (process_line_value_error _ _ _ _ _ Hline) as (-> & Hd & Hn & Hn1).
  exists header, (List.length pre), line.
  rewrite nth_error_app2, Nat.sub_diag by lia.
  repeat split; auto.
Qed.

Lemma value_error_truthful_witness :
  let out := "TIME,Layer,1,2
01/31/2000_24:00,1,1.1,2.2
01/31/2000_24:00,2,3.3,4.4" in
  let msg := "line 5 in file does not have the correct number of values" in
  exists header k line,
    get_header_from_headsout_file long_line = Ok (Some header) /\
    nth_error long_line k = Some line /\
    msg = "line " ++ str (Z.of_nat k + 1)
          ++ " in file does not have the correct number of values" /\
    is_data line = true /\
    token_count line <> Z.of_nat (List.length header) /\
    token_count line <> Z.of_nat (List.length header) - 1.
Proof.
  intros out msg.
  apply (value_error_truthful long_line out msg). vm_compute; reflexivity.
Defined.

(** X7. The [UnboundLocalError] has one cause.  When the call ends with it,
    the variable is [layer], never [date]; the line that raised it is the
    first data line of the file, one token short of the columns; and the csv
    file holds the header line and nothing else. *)
Theorem unbound_only_first (f : list string) (out name : string) :
  headsout_to_csv f = (Some out, Some (UnboundLocalError name)) ->
  exists header (pre : list string) line post,
    get_header_from_headsout_file f = Ok (Some header) /\
    f = (pre ++ line :: post)%list /\
    forallb is_marker_line pre = true /\
    is_data line = true /\
    token_count line = Z.of_nat (List.length header) - 1 /\
    name = "layer" /\
    out = join "," (insert 1 "Layer" header).
Proof.
  intros Hrun.
  destruct (headsout_to_csv_opened _ _ _ Hrun) as [header Hh].
  rewrite (headsout_to_csv_run _ _ Hh) in Hrun.
  injection Hrun as Hout He.
  set (n := Z.of_nat (List.length header)) in *.
  destruct (normalize_raised _ _ _ _ _ He)
    as (pre & line & post & Hf & Hok & Hline & Hem).
  destruct (process_line_unbound _ _ _ _ _ Hline) as (Hd & Hn & Hcause).
  pose proof (normalize_chain n pre 0 unbound Hok) as Hc.
  exists header, pre, line, post.
  destruct (data_lines pre) as [|x xs] eqn:Hdata.
  - apply chain_nil_inv in Hc as [Hrecs Hfinal].
    rewrite Hfinal in Hcause. simpl in Hcause.
    destruct Hcause as [[_ ->]|[Habs _]]; [|congruence].
    rewrite Hem, Hrecs in Hout. simpl in Hout. rewrite append_nil_r in Hout.
    repeat split; auto.
    exact (accepted_markers n pre 0 unbound Hok Hdata).
  - destruct (chain_bound _ _ _ _ _ Hc) as (l & d & Hfinal); [discriminate|].
    rewrite Hfinal in Hcause. simpl in Hcause.
    destruct Hcause as [[Habs _]|[_ Habs]]; discriminate.
Qed.

Lemma unbound_only_first_witness :
  exists header (pre : list string) line post,
    get_header_from_headsout_file orphan = Ok (Some header) /\
    orphan = (pre ++ line :: post)%list /\
    forallb is_marker_line pre = true /\
    is_data line = true /\
    token_count line = Z.of_nat (List.length header) - 1 /\
    "layer" = "layer" /\
    "TIME,Layer,1,2" = join "," (insert 1 "Layer" header).
Proof.
  apply (unbound_only_first orphan "TIME,Layer,1,2" "layer").
  vm_compute; reflexivity.
Defined.

(** ** Longer files, and files without their comments *)








(** ** The input list *)

Lemma split_on_cons (c : ascii) (s : string) :
  exists p ps, split_on c s = p :: ps.
Proof.
  destruct s as [|a s]; simpl; [eauto|].
  destruct (Ascii.eqb a c); [eauto|].
  destruct (split_on c s); eauto.
Qed.

Lemma split_on_no_sep (c : ascii) (s : string) :
  Forall (fun p => occurs c p = false) (split_on c s).
Proof.
  induction s as [|a s IH]; simpl.
  - repeat constructor.
  - destruct (Ascii.eqb a c) eqn:Ha.
    + constructor; [reflexivity | assumption].
    + destruct (split_on c s) as [|p ps].
      * repeat constructor. simpl. now rewrite Ha.
      * inversion IH as [|? ? Hp Hps]; subst.
        constructor; [|assumption]. simpl. now rewrite Ha.
Qed.

(** Splitting a text cut in two at a separator splits the two parts. *)
Lemma split_on_sep (c : ascii) (s t : string) :
  split_on c (s ++ String c t) = (split_on c s ++ split_on c t)%list.
Proof.
  induction s as [|a s IH]; simpl.
  - now rewrite Ascii.eqb_refl.
  - destruct (Ascii.eqb a c); [now rewrite IH|].
    rewrite IH. destruct (split_on_cons c s) as (p & ps & ->). reflexivity.
Qed.

Lemma split_on_join (c : ascii) (l : list string) :
  Forall (fun p => occurs c p = false) l ->
  l <> [] ->
  split_on c (join (String c EmptyString) l) = l.
Proof.
  unfold join. induction l as [|x l IH]; intros Hl Hne; [congruence|].
  inversion Hl as [|? ? Hx Hl']; subst.
  destruct l as [|y l].
  - simpl. now apply split_on_absent.
  - change (concat (String c EmptyString) (x :: y :: l))
      with (x ++ String c (concat (String c EmptyString) (y :: l))).
    rewrite split_on_app by assumption. f_equal.
    apply IH; [assumption | discriminate].
Qed.

Lemma filter_all {A} (keep : A -> bool) (l : list A) :
  Forall (fun x => keep x = true) l -> filter keep l = l.
Proof.
  induction 1 as [|x l Hx Hl IH]; simpl; [reflexivity|].
  now rewrite Hx, IH.
Qed.

Lemma clean_list_kept (input_data : string) :
  Forall (fun item => keep_item item = true /\ occurs "010" item = false)
    (clean_list input_data).
Proof.
  unfold clean_list. apply Forall_forall. intros item Hin.
  apply filter_In in Hin as [Hin Hk]. split; [assumption|].
  pose proof (split_on_no_sep "010" input_data) as Hs.
  rewrite Forall_forall in Hs. now apply Hs.
Qed.

(** X10. Whatever [read_from_command_line] returns was read from a file
    that exists, and no entry of it is empty, starts with [#] or holds a
    newline: the positions the main block reads are lines of settings. *)
Theorem read_entries_clean (fs : files) (reply : option string)
  (args : list string) (l : list string) :
  read_from_command_line fs reply args = Done l ->
  (exists path input_data,
      fs path = Some input_data /\ l = clean_list input_data) /\
  Forall (fun item => item <> EmptyString /\
                      first_char item <> Some "#"%char /\
                      occurs "010" item = false) l.
Proof.
  intros H.
  assert (Hfrom : exists path input_data,
             fs path = Some input_data /\ l = clean_list input_data).
  { unfold read_from_command_line, read_file in H.
    destruct args as [|a0 [|a1 [|a2 args]]]; try discriminate.
    - destruct reply as [file_name|]; [|discriminate].
      destruct (fs file_name) as [text|] eqn:Hf; [|discriminate].
      injection H as <-. eauto.
    - destruct (fs a1) as [text|] eqn:Hf; [|discriminate].
      injection H as <-. eauto. }
  split; [assumption|].
  destruct Hfrom as (path & text & _ & ->).
  eapply Forall_impl; [|apply clean_list_kept].
  intros item [Hk Hnl]. unfold keep_item in Hk.
  apply andb_true_iff in Hk as [Hlen Hc].
  destruct item as [|c item]; [discriminate|].
  repeat split; [discriminate| |assumption].
  simpl in *. intros [= ->]. discriminate.
Qed.

Lemma read_entries_clean_witness :
  let l := ["Nodes.dat"; "HeadsOut.out"; "heads.csv"] in
  (exists path input_data,
      sample_files path = Some input_data /\ l = clean_list input_data) /\
  Forall (fun item => item <> EmptyString /\
                      first_char item <> Some "#"%char /\
                      occurs "010" item = false) l.
Proof.
  intros l.
  apply (read_entries_clean sample_files None ["prog"; "inputs.txt"] l).
  vm_compute; reflexivity.
Defined.

(** X11. The list of two texts put together with a newline between them is
    the list of the first followed by the list of the second. *)
Theorem clean_list_app (s t : string) :
  clean_list (s ++ newline ++ t) = (clean_list s ++ clean_list t)%list.
Proof.
  unfold clean_list, newline. cbn [append].
  now rewrite split_on_sep, filter_app.
Qed.

(** X12. A line the comprehension drops, a comment that starts with [#] or
    an empty line, can be put anywhere between two lines of the input file
    without changing the list: the positions of the settings do not move. *)
Theorem comment_line_ignored (s t c : string) :
  keep_item c = false ->
  occurs "010" c = false ->
  clean_list (s ++ newline ++ c ++ newline ++ t)
  = clean_list (s ++ newline ++ t).
Proof.
  intros Hk Hc. rewrite !clean_list_app.
  replace (clean_list c) with (@nil string); [reflexivity|].
  unfold clean_list. rewrite (split_on_absent _ _ Hc). simpl.
  now rewrite Hk.
Qed.

Lemma comment_line_ignored_witness :
  clean_list ("Nodes.dat" ++ newline ++ "# heads" ++ newline ++ "heads.csv")
  = clean_list ("Nodes.dat" ++ newline ++ "heads.csv").
Proof.
  apply (comment_line_ignored "Nodes.dat" "heads.csv" "# heads");
    reflexivity.
Defined.

(** X13. Reading is idempotent: the list written back one entry to a line
    and read again is the same list. *)
Theorem clean_list_idempotent (input_data : string) :
  clean_list (join newline (clean_list input_data)) = clean_list input_data.
Proof.
  pose proof (clean_list_kept input_data) as Hk.
  destruct (clean_list input_data) as [|x l] eqn:Hl; [reflexivity|].
  unfold clean_list at 1. unfold newline.
  rewrite split_on_join; [|..|discriminate].
  - apply filter_all. eapply Forall_impl; [|exact Hk]. now intros item [? _].
  - eapply Forall_impl; [|exact Hk]. now intros item [_ ?].
Qed.

(** ** The conversion step of the main block *)

Lemma headsout_to_csv_unopened (text : string) (e : option exn) :
  headsout_to_csv (iter_lines text) = (None, e) -> e = Some TypeError.
Proof.
  unfold headsout_to_csv.
  unfold get_header_from_headsout_file.
  destruct (header_scan_total _ (iter_lines_all_nonempty text) None)
    as [h ->].
  destruct h as [header|]; [|now intros [= <-]].
  destruct (convert_lines _ _ _ _ _). discriminate.
Qed.

(** X14. The conversion step writes to the csv path and to no other: every
    other file, and the headsout file whatever its path, is afterwards what
    it was before. *)
Theorem conversion_touches_csv_only (fs : files)
  (headsout_file headsout_csv p : string) :
  p <> headsout_csv \/ p = headsout_file ->
  fst (convert_if_missing fs headsout_file headsout_csv) p = fs p.
Proof.
  intros Hp. unfold convert_if_missing, read_file.
  destruct (fs headsout_csv) as [old|] eqn:Hcsv; [reflexivity|].
  destruct (fs headsout_file) as [text|] eqn:Hfile; [|reflexivity].
  destruct (headsout_to_csv (iter_lines text)) as [[out|] e]; [|reflexivity].
  cbn [fst]. unfold write_file.
  destruct (String.eqb_spec p headsout_csv) as [->|]; [|reflexivity].
  destruct Hp as [Hp|Hp]; congruence.
Qed.

Lemma conversion_touches_csv_only_witness :
  fst (convert_if_missing sample_files "HeadsOut.out" "heads.csv")
    "HeadsOut.out"
  = sample_files "HeadsOut.out".
Proof.
  apply (conversion_touches_csv_only sample_files
           "HeadsOut.out" "heads.csv" "HeadsOut.out").
  right. reflexivity.
Defined.

(** X15. A conversion that fails on a line of the headsout file leaves the
    csv file behind, with what was written before the failure; and since the
    step only tests that the csv file exists, running it again converts
    nothing, changes nothing and reports nothing. *)
Theorem failed_conversion_sticks (fs fs1 : files)
  (headsout_file headsout_csv : string) (e : exn) :
  convert_if_missing fs headsout_file headsout_csv = (fs1, Some (Python e)) ->
  e <> TypeError ->
  fs headsout_csv = None /\
  (exists text out,
      fs headsout_file = Some text /\
      headsout_to_csv (iter_lines text) = (Some out, Some e) /\
      fs1 headsout_csv = Some out) /\
  convert_if_missing fs1 headsout_file headsout_csv = (fs1, None).
Proof.
  unfold convert_if_missing at 1. unfold read_file. intros H He.
  destruct (fs headsout_csv) as [old|] eqn:Hcsv; [discriminate|].
  destruct (fs headsout_file) as [text|] eqn:Hfile; [|discriminate].
  destruct (headsout_to_csv (iter_lines text)) as [[out|] e'] eqn:Hrun.
  - injection H as <- He'. destruct e' as [e'|]; [|discriminate].
    injection He' as ->.
    assert (Hout : write_file fs headsout_csv out headsout_csv = Some out)
      by (unfold write_file; now rewrite String.eqb_refl).
    split; [reflexivity|]. split; [eauto|].
    unfold convert_if_missing. now rewrite Hout.
  - rewrite (headsout_to_csv_unopened _ _ Hrun) in H.
    injection H as _ <-. congruence.
Qed.

Lemma failed_conversion_sticks_witness :
  let fs := sample_files in
  let fs1 := fst (convert_if_missing fs "HeadsOut.out" "heads.csv") in
  let e :=
    ValueError "line 5 in file does not have the correct number of values" in
  fs "heads.csv" = None /\
  (exists text out,
      fs "HeadsOut.out" = Some text /\
      headsout_to_csv (iter_lines text) = (Some out, Some e) /\
      fs1 "heads.csv" = Some out) /\
  convert_if_missing fs1 "HeadsOut.out" "heads.csv" = (fs1, None).
Proof.
  intros fs fs1 e.
  apply (failed_conversion_sticks fs fs1 "HeadsOut.out" "heads.csv" e).
  - vm_compute. reflexivity.
  - discriminate.
Defined.
